(** * CodeExplain: the documentation visitor of [app.py]

    A shallow embedding of [CodeDocGenerator] (an [ast.NodeVisitor]) and of
    [analyze_code], with the properties of the written specification stated
    over it.

    Layout:
    - Python values: text, [str * int], [str.join], [x or default];
    - the syntax tree, with one constructor per node class the program
      inspects and [Other] for every class it walks through by default;
    - the interpreter's library ([ast.parse], [ast.unparse],
      [inspect.cleandoc], the UTF-8 codec) as an interface, [Python];
    - the visitor, method by method, over the object state
      [docs] / [indent_level];
    - [analyze_code];
    - a sample interpreter for closed examples;
    - the properties. *)

From Stdlib Require Import String Ascii List ZArith Lia Bool DecimalString.
From Stdlib.Strings Require Import Byte.
Import ListNotations.

#[local] Set Warnings "-register-all".
#[local] Open Scope list_scope.
#[local] Open Scope string_scope.

(* ===================================================================== *)
(** ** Python text *)
(* ===================================================================== *)

(** A Python [str] is kept as its UTF-8 bytes in a [string]; the literals
    below are the source's, byte for byte. *)

Definition LF : ascii := ascii_of_nat 10.
Definition CR : ascii := ascii_of_nat 13.
Definition SP : ascii := ascii_of_nat 32.

(** ["\n"] *)
Definition nl : string := String LF EmptyString.

(** ["\r\n"] *)
Definition crlf : string := String CR (String LF EmptyString).

Fixpoint str_repeat (s : string) (n : nat) : string :=
  match n with
  | O => EmptyString
  | S k => (s ++ str_repeat s k)%string
  end.

(** [s * n]: empty when [n <= 0]. *)
Definition str_mul (s : string) (n : Z) : string := str_repeat s (Z.to_nat n).

(** [sep.join(l)] *)
Definition str_join (sep : string) (l : list string) : string := String.concat sep l.

(** [str(n)] of an [int]. *)
Definition str_of_int (n : Z) : string := NilZero.string_of_int (Z.to_int n).

(** [s.lstrip(" ")] *)
Fixpoint lstrip (s : string) : string :=
  match s with
  | String c t => if Ascii.eqb c SP then lstrip t else s
  | EmptyString => EmptyString
  end.

(** [s.startswith(p)] *)
Fixpoint startswith (s p : string) {struct p} : bool :=
  match p with
  | EmptyString => true
  | String a p' =>
      match s with
      | String b s' => Ascii.eqb a b && startswith s' p'
      | EmptyString => false
      end
  end.

(** [x or default] for an optional text: [None] and [""] are both falsy. *)
Definition or_else (x : option string) (default : string) : string :=
  match x with
  | Some EmptyString => default
  | Some s => s
  | None => default
  end.

(* ===================================================================== *)
(** ** Syntax trees *)
(* ===================================================================== *)

(** The value of an [ast.Constant]. *)
Inductive constant : Type :=
| CNone
| CBool (b : bool)
| CInt (z : Z)
| CStr (s : string)
| CBytes (b : list byte)
| CEllipsis
| CNumber (repr : string).

(** [ast.alias] *)
Record alias : Type := { name : string; asname : option string }.

(** [ast.arg]: only its [arg] attribute is read. *)
Record arg_node : Type := { arg : string }.

(** [ast.arguments]: only its [args] list is read. *)
Record arguments : Type := { args : list arg_node }.

(** The nodes below a module. The classes with a [visit_] method and those
    whose shape the program tests ([Expr], [Constant], [Attribute], [Name])
    or whose treatment the specification singles out ([While]) have their
    own constructor, fields in the order of the class's [_fields]. [Other]
    is a node of any other class (If, BinOp, keyword, AsyncFunctionDef,
    arguments, ...): [children] are its child nodes in the order
    [ast.iter_child_nodes] yields them. *)
Inductive node : Type :=
| Import (names : list alias)
| ImportFrom (module : option string) (names : list alias) (level : Z)
| ClassDef (name : string) (lineno : Z)
           (bases keywords body decorator_list : list node)
| FunctionDef (name : string) (lineno : Z) (args : arguments)
              (body decorator_list : list node) (returns : option node)
| Assign (targets : list node) (value : node)
| For (target iter : node) (body orelse : list node)
| While (test : node) (body orelse : list node)
| Call (func : node) (args keywords : list node)
| Return (value : option node)
| Expr (value : node)
| Constant (value : constant)
| Attribute (value : node) (attr : string)
| Name (id : string)
| Other (children : list node).

(** [ast.Module], the root [ast.parse] returns; it occurs nowhere else in a
    tree. *)
Record module_node : Type := Module { body : list node; type_ignores : list node }.

(** Induction over [node] with the hypothesis available for the nodes of
    every list field. *)
Section node_induction.

Variable P : node -> Prop.

Hypothesis P_Import : forall names, P (Import names).
Hypothesis P_ImportFrom : forall module names level, P (ImportFrom module names level).
Hypothesis P_ClassDef : forall name lineno bases keywords body decorator_list,
  Forall P bases -> Forall P keywords -> Forall P body -> Forall P decorator_list ->
  P (ClassDef name lineno bases keywords body decorator_list).
Hypothesis P_FunctionDef : forall name lineno args body decorator_list returns,
  Forall P body -> Forall P decorator_list ->
  P (FunctionDef name lineno args body decorator_list returns).
Hypothesis P_Assign : forall targets value,
  Forall P targets -> P value -> P (Assign targets value).
Hypothesis P_For : forall target iter body orelse,
  P target -> P iter -> Forall P body -> Forall P orelse ->
  P (For target iter body orelse).
Hypothesis P_While : forall test body orelse,
  P test -> Forall P body -> Forall P orelse -> P (While test body orelse).
Hypothesis P_Call : forall func args keywords,
  P func -> Forall P args -> Forall P keywords -> P (Call func args keywords).
Hypothesis P_Return : forall value, P (Return value).
Hypothesis P_Expr : forall value, P value -> P (Expr value).
Hypothesis P_Constant : forall value, P (Constant value).
Hypothesis P_Attribute : forall value attr, P value -> P (Attribute value attr).
Hypothesis P_Name : forall id, P (Name id).
Hypothesis P_Other : forall children, Forall P children -> P (Other children).

Fixpoint node_nested_ind (n : node) : P n :=
  let all := fix all (l : list node) : Forall P l :=
    match l with
    | [] => Forall_nil P
    | x :: t => Forall_cons x (node_nested_ind x) (all t)
    end in
  match n with
  | Import names => P_Import names
  | ImportFrom module names level => P_ImportFrom module names level
  | ClassDef name lineno bases keywords body decorator_list =>
      P_ClassDef name lineno bases keywords body decorator_list
        (all bases) (all keywords) (all body) (all decorator_list)
  | FunctionDef name lineno args body decorator_list returns =>
      P_FunctionDef name lineno args body decorator_list returns
        (all body) (all decorator_list)
  | Assign targets value =>
      P_Assign targets value (all targets) (node_nested_ind value)
  | For target iter body orelse =>
      P_For target iter body orelse (node_nested_ind target) (node_nested_ind iter)
        (all body) (all orelse)
  | While test body orelse =>
      P_While test body orelse (node_nested_ind test) (all body) (all orelse)
  | Call func args keywords =>
      P_Call func args keywords (node_nested_ind func) (all args) (all keywords)
  | Return value => P_Return value
  | Expr value => P_Expr value (node_nested_ind value)
  | Constant value => P_Constant value
  | Attribute value attr => P_Attribute value attr (node_nested_ind value)
  | Name id => P_Name id
  | Other children => P_Other children (all children)
  end.

End node_induction.

(* ===================================================================== *)
(** ** Exceptions and the interpreter's library *)
(* ===================================================================== *)

(** An instance of [Exception]: its class and [str(e)]. *)
Record Exception : Type := { exc_class : string; exc_str : string }.

(** A computation that returns or raises. *)
Definition result (A : Type) : Type := (Exception + A)%type.

Definition ret {A : Type} (a : A) : result A := inr a.
Definition raise {A : Type} (e : Exception) : result A := inl e.

Definition bind {A B : Type} (c : result A) (k : A -> result B) : result B :=
  match c with
  | inl e => inl e
  | inr a => k a
  end.

Notation "x <- c ;; k" := (bind c (fun x => k))
  (at level 61, c at next level, right associativity).

(** What the program takes from the interpreter and its standard library.
    [ast_unparse] is [None] when [hasattr(ast, "unparse")] is false.
    [visit_raises tree] is the exception, if any, with which the
    interpreter cuts the visit of [tree] short: a [RecursionError] when the
    tree is nested deeper than the recursion limit allows, or what
    [ast.unparse] raises on an expression it cannot print (a [ValueError]
    on an integer literal of too many digits). *)
Class Python : Type := {
  ast_parse : string -> result module_node;
  ast_unparse : option (node -> string);
  inspect_cleandoc : string -> string;
  utf8_decode : list byte -> result string;
  visit_raises : module_node -> option Exception
}.

(** [ast.get_docstring(node)] ([clean=True]) on the [body] of a class or
    function definition: the cleaned text of a leading bare string literal. *)
Definition get_docstring `{Python} (body : list node) : option string :=
  match body with
  | Expr (Constant (CStr text)) :: _ => Some (inspect_cleandoc text)
  | _ => None
  end.

(** [ast.unparse(e) if hasattr(ast, "unparse") else "?"] *)
Definition unparse_or_mark `{Python} (e : node) : string :=
  match ast_unparse with
  | Some unparse => unparse e
  | None => "?"
  end.

(** Universal newlines, as a text-mode [open] with the default [newline=None]
    returns what it reads: each ["\r\n"] and each lone ["\r"] becomes ["\n"]. *)
Fixpoint universal_newlines (s : string) : string :=
  match s with
  | EmptyString => EmptyString
  | String c t =>
      if Ascii.eqb c CR then
        String LF
          match t with
          | String c' t' =>
              if Ascii.eqb c' LF then universal_newlines t' else universal_newlines t
          | EmptyString => EmptyString
          end
      else String c (universal_newlines t)
  end.

(* ===================================================================== *)
(** ** class CodeDocGenerator(ast.NodeVisitor) *)
(* ===================================================================== *)

(** The object's attributes. *)
Record CodeDocGenerator : Type := { docs : list string; indent_level : Z }.

(** [__init__] *)
Definition CodeDocGenerator_init : CodeDocGenerator :=
  {| docs := []; indent_level := 0 |}.

(** [self.docs.append(line)] *)
Definition docs_append (line : string) (self : CodeDocGenerator) : CodeDocGenerator :=
  {| docs := (docs self ++ [line])%list; indent_level := indent_level self |}.

(** [self.indent_level = n] *)
Definition set_indent_level (n : Z) (self : CodeDocGenerator) : CodeDocGenerator :=
  {| docs := docs self; indent_level := n |}.

(** [indent] *)
Definition indent (self : CodeDocGenerator) : string :=
  str_mul "  " (indent_level self).

(** The lines written, one definition per f-string of the class. *)

(** ["# 📘 Code Analysis and Auto Documentation\n"] *)
Definition title_line : string := "# 📘 Code Analysis and Auto Documentation" ++ nl.

(** [f"- 📦 Import: `{names}`"] *)
Definition import_line (names : string) : string := "- 📦 Import: `" ++ names ++ "`".

(** [f"- 📦 From `{module}` import `{names}`"] *)
Definition import_from_line (module names : string) : string :=
  "- 📦 From `" ++ module ++ "` import `" ++ names ++ "`".

(** [f"{prefix}## 🧱 Class: `{node.name}` (Line {node.lineno})"] *)
Definition class_line (prefix name : string) (lineno : Z) : string :=
  prefix ++ "## 🧱 Class: `" ++ name ++ "` (Line " ++ str_of_int lineno ++ ")".

(** [f"{prefix}- 📄 Docstring: {docstring}"] *)
Definition docstring_line (prefix docstring : string) : string :=
  prefix ++ "- 📄 Docstring: " ++ docstring.

(** [f"{prefix}### 🔧 Function: `{node.name}` (Line {node.lineno})"] *)
Definition function_line (prefix name : string) (lineno : Z) : string :=
  prefix ++ "### 🔧 Function: `" ++ name ++ "` (Line " ++ str_of_int lineno ++ ")".

(** [f"{prefix}- 🧩 Arguments: {', '.join(args) if args else 'None'}"] *)
Definition arguments_line (prefix : string) (args : list string) : string :=
  prefix ++ "- 🧩 Arguments: "
    ++ match args with [] => "None" | _ :: _ => str_join ", " args end.

(** [f"{prefix}- 📝 Assignment: `{targets} = {value}`"] *)
Definition assignment_line (prefix targets value : string) : string :=
  prefix ++ "- 📝 Assignment: `" ++ targets ++ " = " ++ value ++ "`".

(** [f"{prefix}- 🔁 For loop: `for {target} in {iter_}`"] *)
Definition for_line (prefix target iter_ : string) : string :=
  prefix ++ "- 🔁 For loop: `for " ++ target ++ " in " ++ iter_ ++ "`".

(** [f"{prefix}- 📞 Function call: `{func_name}`"] *)
Definition call_line (prefix func_name : string) : string :=
  prefix ++ "- 📞 Function call: `" ++ func_name ++ "`".

(** [f"{prefix}- 🔙 Return statement: `{value}`"] *)
Definition return_line (prefix value : string) : string :=
  prefix ++ "- 🔙 Return statement: `" ++ value ++ "`".

(** The methods, each over the fields of the node it receives and
    returning the object as the call leaves it. [visit] is the inherited
    dispatcher, tied below. *)
Section methods.

Context `{Python}.
Variable visit : node -> CodeDocGenerator -> CodeDocGenerator.

(** [for item in value: self.visit(item)], for one list field. *)
Definition visit_each (value : list node) (self : CodeDocGenerator) : CodeDocGenerator :=
  fold_left (fun self item => visit item self) value self.

Definition visit_body_elements (body : list node) (self : CodeDocGenerator)
  : CodeDocGenerator :=
  visit_each body self.

Definition visit_Import (names : list alias) (self : CodeDocGenerator) : CodeDocGenerator :=
  let names := str_join ", " (map name names) in
  docs_append (import_line names) self.

Definition visit_ImportFrom (module : option string) (names : list alias)
  (self : CodeDocGenerator) : CodeDocGenerator :=
  let module := or_else module "" in
  let names := str_join ", " (map name names) in
  docs_append (import_from_line module names) self.

Definition visit_ClassDef (name : string) (lineno : Z) (body : list node)
  (self : CodeDocGenerator) : CodeDocGenerator :=
  let prefix := indent self in
  let docstring := or_else (get_docstring body) "No class docstring found." in
  let self := docs_append (class_line prefix name lineno) self in
  let self := docs_append (docstring_line prefix docstring) self in
  let self := set_indent_level (indent_level self + 1) self in
  let self := visit_body_elements body self in
  set_indent_level (indent_level self - 1) self.

Definition visit_FunctionDef (name : string) (lineno : Z) (node_args : arguments)
  (body : list node) (self : CodeDocGenerator) : CodeDocGenerator :=
  let prefix := indent self in
  let args := map arg (args node_args) in
  let docstring := or_else (get_docstring body) "No function docstring found." in
  let self := docs_append (function_line prefix name lineno) self in
  let self := docs_append (arguments_line prefix args) self in
  let self := docs_append (docstring_line prefix docstring) self in
  let self := set_indent_level (indent_level self + 1) self in
  let self := visit_body_elements body self in
  set_indent_level (indent_level self - 1) self.

Definition visit_Assign (targets : list node) (value : node) (self : CodeDocGenerator)
  : CodeDocGenerator :=
  let prefix := indent self in
  let targets := str_join ", " (map unparse_or_mark targets) in
  let value := unparse_or_mark value in
  docs_append (assignment_line prefix targets value) self.

Definition visit_For (target iter : node) (body : list node) (self : CodeDocGenerator)
  : CodeDocGenerator :=
  let prefix := indent self in
  let target := unparse_or_mark target in
  let iter_ := unparse_or_mark iter in
  let self := docs_append (for_line prefix target iter_) self in
  let self := set_indent_level (indent_level self + 1) self in
  let self := visit_body_elements body self in
  set_indent_level (indent_level self - 1) self.

Definition visit_Call (func : node) (args keywords : list node) (self : CodeDocGenerator)
  : CodeDocGenerator :=
  let prefix := indent self in
  let func_name :=
    match func with
    | Attribute value attr => unparse_or_mark value ++ "." ++ attr
    | Name id => id
    | _ => ""
    end in
  let self := docs_append (call_line prefix func_name) self in
  (* self.generic_visit(node): the fields func, args, keywords *)
  let self := visit func self in
  let self := visit_each args self in
  visit_each keywords self.

Definition visit_Return (value : option node) (self : CodeDocGenerator) : CodeDocGenerator :=
  let prefix := indent self in
  let value :=
    match value, ast_unparse with
    | Some value, Some unparse => unparse value
    | _, _ => "?"
    end in
  docs_append (return_line prefix value) self.

End methods.

(** [NodeVisitor.visit]: the method named after the node's class, and
    [generic_visit] (every child node, field by field) for a class that has
    none. *)
Fixpoint visit `{Python} (n : node) (self : CodeDocGenerator) {struct n} : CodeDocGenerator :=
  match n with
  | Import names => visit_Import names self
  | ImportFrom module names _ => visit_ImportFrom module names self
  | ClassDef name lineno _ _ body _ => visit_ClassDef visit name lineno body self
  | FunctionDef name lineno args body _ _ =>
      visit_FunctionDef visit name lineno args body self
  | Assign targets value => visit_Assign targets value self
  | For target iter body _ => visit_For visit target iter body self
  | Call func args keywords => visit_Call visit func args keywords self
  | Return value => visit_Return value self
  | While test body orelse =>
      visit_each visit orelse (visit_each visit body (visit test self))
  | Expr value => visit value self
  | Attribute value _ => visit value self
  | Constant _ => self
  | Name _ => self
  | Other children => visit_each visit children self
  end.

(** [visit_Module], reached by [doc_gen.visit(tree)]. *)
Definition visit_Module `{Python} (tree : module_node) (self : CodeDocGenerator)
  : CodeDocGenerator :=
  let self := docs_append title_line self in
  (* self.generic_visit(node): the fields body, type_ignores *)
  let self := visit_each visit (body tree) self in
  visit_each visit (type_ignores tree) self.

(* ===================================================================== *)
(** ** analyze_code *)
(* ===================================================================== *)

(** The argument [file]: [None]; an object with a [read] attribute, given by
    what [file.read()] does; or a path, given with what opening it finds
    (the bytes of the file, or the [OSError]). *)
Inductive file_arg : Type :=
| PyNone
| FileObj (read : result (list byte))
| FilePath (path : string) (contents : result (list byte)).

(** [file.read().decode("utf-8") if hasattr(file, "read")
     else open(file, "r", encoding="utf-8").read()] *)
Definition read_source `{Python} (file : file_arg) : result string :=
  match file with
  | FileObj read =>
      data <- read ;;
      utf8_decode data
  | FilePath _ contents =>
      data <- contents ;;
      text <- utf8_decode data ;;
      ret (universal_newlines text)
  | PyNone =>
      raise {| exc_class := "TypeError";
               exc_str := "expected str, bytes or os.PathLike object, not NoneType" |}
  end.

(** [doc_gen.visit(tree)] as the interpreter runs it: the visit reaches
    its end and leaves the object as [visit_Module] does, or an exception
    cuts it short. *)
Definition run_visit `{Python} (tree : module_node) (doc_gen : CodeDocGenerator)
  : result CodeDocGenerator :=
  match visit_raises tree with
  | Some e => raise e
  | None => ret (visit_Module tree doc_gen)
  end.

Definition analyze_code `{Python} (file : file_arg) : string * string :=
  match file with
  | PyNone =>
      ("### ⚠️ No file uploaded! **Please upload a `.py` file to generate documentation.** ⚠️",
       "")
  | _ =>
      let attempt :=
        source_code <- read_source file ;;
        tree <- ast_parse source_code ;;
        let doc_gen := CodeDocGenerator_init in
        doc_gen <- run_visit tree doc_gen ;;
        ret (str_join nl (docs doc_gen), source_code) in
      match attempt with
      | inr returned => returned
      | inl e => ("❌ Error: " ++ exc_str e, "")
      end
  end.

Definition clear_all : option file_arg * string * string := (None, "", "").

(* ===================================================================== *)
(** ** A sample interpreter *)
(* ===================================================================== *)

(** An instance of [Python] for closed examples. [cleandoc] and [decode]
    follow CPython on every input. [unparse] is exact on the expressions it
    covers (names, non-negative integer literals, attribute access on
    those, calls with positional arguments), [parse] on the sources of
    [parse_table], and [no_limit_reached] on trees far from the
    interpreter's limits, as those of the examples are (a few levels of
    nesting, integers of one digit); outside them they return a fixed value
    that no example relies on. *)
Module CPython.

Definition TAB : ascii := ascii_of_nat 9.

(** A byte that continues a UTF-8 sequence: it starts no character. *)
Definition is_continuation (c : ascii) : bool :=
  let n := N_of_ascii c in ((128 <=? n) && (n <? 192))%N.

(** [s.expandtabs()]: tab stops every 8 columns, the column counted in
    characters and reset by a line break. *)
Fixpoint expandtabs_from (column : nat) (s : string) : string :=
  match s with
  | EmptyString => EmptyString
  | String c t =>
      if Ascii.eqb c TAB then
        let incr := 8 - column mod 8 in
        str_repeat " " incr ++ expandtabs_from (column + incr) t
      else if Ascii.eqb c LF || Ascii.eqb c CR then
        String c (expandtabs_from 0 t)
      else
        String c (expandtabs_from (if is_continuation c then column else S column) t)
  end.

Definition expandtabs (s : string) : string := expandtabs_from 0 s.

(** [s.split("\n")] *)
Fixpoint split_lines (s : string) : list string :=
  match s with
  | EmptyString => [EmptyString]
  | String c t =>
      if Ascii.eqb c LF then EmptyString :: split_lines t
      else
        match split_lines t with
        | line :: rest => String c line :: rest
        | [] => [String c EmptyString]
        end
  end.

(** [s[n:]] *)
Fixpoint drop (n : nat) (s : string) : string :=
  match n, s with
  | S k, String _ t => drop k t
  | _, _ => s
  end.

(** The least indentation of the non-blank lines, [None] for [sys.maxsize]. *)
Fixpoint margin_of (lines : list string) (margin : option nat) : option nat :=
  match lines with
  | [] => margin
  | line :: rest =>
      let content := String.length (lstrip line) in
      match content with
      | O => margin_of rest margin
      | _ =>
          let indent := String.length line - content in
          margin_of rest
            (Some match margin with Some m => Nat.min m indent | None => indent end)
      end
  end.

(** [while lines and not lines[0]: lines.pop(0)] *)
Fixpoint pop_leading_blank (lines : list string) : list string :=
  match lines with
  | EmptyString :: rest => pop_leading_blank rest
  | _ => lines
  end.

(** [while lines and not lines[-1]: lines.pop()] *)
Definition pop_trailing_blank (lines : list string) : list string :=
  rev (pop_leading_blank (rev lines)).

(** [inspect.cleandoc] (the text of CPython 3.13; earlier versions strip
    every white-space character where this one strips spaces). *)
Definition cleandoc (doc : string) : string :=
  let lines := split_lines (expandtabs doc) in
  let margin := margin_of (tl lines) None in
  let lines :=
    match lines with
    | first :: rest =>
        lstrip first ::
        match margin with
        | Some m => map (drop m) rest
        | None => rest
        end
    | [] => []
    end in
  str_join nl (pop_leading_blank (pop_trailing_blank lines)).

(** [ast.unparse] on the covered expressions. An attribute of an integer
    literal is written with a space before the dot ([1 .real]). *)
Fixpoint unparse (e : node) : string :=
  match e with
  | Name id => id
  | Constant (CInt z) => str_of_int z
  | Attribute value attr =>
      unparse value
        ++ match value with Constant (CInt _) => " " | _ => EmptyString end
        ++ "." ++ attr
  | Call func args _ => unparse func ++ "(" ++ str_join ", " (map unparse args) ++ ")"
  | _ => EmptyString
  end.

Definition SyntaxError (msg : string) : Exception :=
  {| exc_class := "SyntaxError"; exc_str := msg |}.

(** [f()] *)
Definition call0 (f : string) : node := Call (Name f) [] [].

(** The tree of [import os]. *)
Definition import_os : module_node :=
  Module [Import [{| name := "os"; asname := None |}]] [].

(** The tree of [f(g(), h())]. *)
Definition nested_calls : module_node :=
  Module [Expr (Call (Name "f") [call0 "g"; call0 "h"] [])] [].

(** The tree of a [while c:] loop whose body is the statement [f()]. *)
Definition while_loop : module_node :=
  Module [While (Name "c") [Expr (call0 "f")] []] [].

(** The tree of a class [C] whose body is the empty string literal. *)
Definition empty_docstring : module_node :=
  Module [ClassDef "C" 1 [] [] [Expr (Constant (CStr ""))] []] [].

(** The tree of a class [C] with the docstring [doc] and the statement
    [x = 1]. *)
Definition documented_class : module_node :=
  Module [ClassDef "C" 1 [] []
            [Expr (Constant (CStr "doc")); Assign [Name "x"] (Constant (CInt 1))] []] [].

(** The tree of a function [f()] whose docstring is [doc] after two
    spaces. *)
Definition padded_docstring : module_node :=
  Module [FunctionDef "f" 1 {| args := [] |} [Expr (Constant (CStr "  doc"))] [] None] [].

(** The tree of the augmented assignment [x += g()]: an [AugAssign] node,
    walked by default, with its target, its operator node and its value. *)
Definition augmented_assignment : module_node :=
  Module [Other [Name "x"; Other []; call0 "g"]] [].

(** [ast.parse] on a few sources. *)
Definition parse_table : list (string * result module_node) :=
  [ ("import os", ret import_os);
    ("import os" ++ nl, ret import_os);
    ("import os" ++ crlf, ret import_os);
    ("f(g(), h())", ret nested_calls);
    ("x += g()", ret augmented_assignment);
    ("while c:" ++ nl ++ "    f()", ret while_loop);
    ("class C:" ++ nl ++ "    ''", ret empty_docstring);
    ("class C:" ++ nl ++ "    '''doc'''" ++ nl ++ "    x = 1", ret documented_class);
    ("def f():" ++ nl ++ "    '  doc'", ret padded_docstring);
    ("(", raise (SyntaxError "'(' was never closed (<unknown>, line 1)")) ].

Definition parse (source : string) : result module_node :=
  match find (fun entry => String.eqb (fst entry) source) parse_table with
  | Some entry => snd entry
  | None => raise (SyntaxError "invalid syntax (<unknown>, line 1)")
  end.

(** Two lower-case hexadecimal digits. *)
Definition hex2 (n : N) : string :=
  let digit d := match String.get (N.to_nat d) "0123456789abcdef" with
                 | Some c => String c EmptyString
                 | None => EmptyString
                 end in
  digit (n / 16)%N ++ digit (n mod 16)%N.

Definition str_of_nat (n : nat) : string := str_of_int (Z.of_nat n).

(** [UnicodeDecodeError] of the codec: the bytes [start .. stop-1] of [data]
    cannot be decoded. *)
Definition UnicodeDecodeError (data : list N) (start stop : nat) (reason : string)
  : Exception :=
  {| exc_class := "UnicodeDecodeError";
     exc_str :=
       if Nat.eqb (stop - start) 1 then
         "'utf-8' codec can't decode byte 0x" ++ hex2 (nth start data 0%N)
           ++ " in position " ++ str_of_nat start ++ ": " ++ reason
       else
         "'utf-8' codec can't decode bytes in position " ++ str_of_nat start
           ++ "-" ++ str_of_nat (stop - 1) ++ ": " ++ reason |}.

(** Where a strict UTF-8 decoder stops: [None] when the bytes are well
    formed, else the span of the offending bytes and the reason. [pos] is
    the index of the head of [rest] in the whole data, [len] its length. *)
Fixpoint utf8_scan (len pos : nat) (rest : list N) : option (nat * nat * string) :=
  let cont b := ((128 <=? b) && (b <? 192))%N in
  let start := Some (pos, S pos, "invalid start byte") in
  let continuation k := Some (pos, pos + k, "invalid continuation byte") in
  let eod := Some (pos, len, "unexpected end of data") in
  match rest with
  | [] => None
  | ch :: r1 =>
      if (ch <? 128)%N then utf8_scan len (S pos) r1
      else if (ch <? 194)%N then start
      else if (ch <? 224)%N then
        match r1 with
        | [] => eod
        | ch2 :: r2 => if cont ch2 then utf8_scan len (pos + 2) r2 else continuation 1
        end
      else if (ch <? 240)%N then
        match r1 with
        | [] => eod
        | ch2 :: r2 =>
            if negb (cont ch2)
               || (if (ch2 <? 160)%N then (ch =? 224)%N else (ch =? 237)%N)
            then continuation 1
            else
              match r2 with
              | [] => eod
              | ch3 :: r3 =>
                  if cont ch3 then utf8_scan len (pos + 3) r3 else continuation 2
              end
        end
      else if (ch <? 245)%N then
        match r1 with
        | [] => eod
        | ch2 :: r2 =>
            if negb (cont ch2)
               || (if (ch2 <? 144)%N then (ch =? 240)%N else (ch =? 244)%N)
            then continuation 1
            else
              match r2 with
              | [] => eod
              | ch3 :: r3 =>
                  if negb (cont ch3) then continuation 2
                  else
                    match r3 with
                    | [] => eod
                    | ch4 :: r4 =>
                        if cont ch4 then utf8_scan len (pos + 4) r4 else continuation 3
                    end
              end
        end
      else start
  end.

(** [data.decode("utf-8")] *)
Definition decode (data : list byte) : result string :=
  let codes := map Byte.to_N data in
  match utf8_scan (length data) 0 codes with
  | None => ret (string_of_list_byte data)
  | Some (start, stop, reason) => raise (UnicodeDecodeError codes start stop reason)
  end.

(** No visit of the examples' trees is cut short. *)
Definition no_limit_reached (tree : module_node) : option Exception := None.

#[export] Instance interpreter : Python :=
  {| ast_parse := parse;
     ast_unparse := Some unparse;
     inspect_cleandoc := cleandoc;
     utf8_decode := decode;
     visit_raises := no_limit_reached |}.

End CPython.

(* ===================================================================== *)
(** ** Reading the output *)
(* ===================================================================== *)

(** The lines a visit of [n] appends when it starts at indentation level
    [d]: the visitor run on an empty list. *)
Definition emitted `{Python} (d : Z) (n : node) : list string :=
  docs (visit n {| docs := []; indent_level := d |}).

(** The same for the statements of a body, one after the other. *)
Definition emitted_each `{Python} (d : Z) (l : list node) : list string :=
  flat_map (emitted d) l.

(** What a visit does to the object: it appends its lines and leaves the
    level as it found it. *)
Definition appends `{Python} (n : node) : Prop :=
  forall self,
    visit n self =
    {| docs := docs self ++ emitted (indent_level self) n;
       indent_level := indent_level self |}.

Fixpoint leading_spaces (s : string) : nat :=
  match s with
  | String c t => if Ascii.eqb c SP then S (leading_spaces t) else O
  | EmptyString => O
  end.

(** The indentation depth of a line, in two-space units. *)
Definition indent_depth (line : string) : nat := leading_spaces line / 2.

(** A line of the shape [visit_Call] writes, at any indentation. *)
Definition is_call_line (line : string) : bool :=
  startswith (lstrip line) "- 📞 Function call: `".

(** The text of the bare string literal a body starts with, if it does. *)
Definition leading_literal (body : list node) : option string :=
  match body with
  | Expr (Constant (CStr text)) :: _ => Some text
  | _ => None
  end.

(** For each line a visit of [n] emits, in order, the number of bodies that
    enclose the emitting node, [d] being that number at [n] itself; an
    import line counts 0. The bodies counted are those of class
    definitions, function definitions and [for] loops, and with
    [count_while] also those of [while] loops. *)
Fixpoint enclosing_bodies (count_while : bool) (d : nat) (n : node) : list nat :=
  match n with
  | Import _ | ImportFrom _ _ _ => [O]
  | ClassDef _ _ _ _ body _ => d :: d :: flat_map (enclosing_bodies count_while (S d)) body
  | FunctionDef _ _ _ body _ _ =>
      d :: d :: d :: flat_map (enclosing_bodies count_while (S d)) body
  | Assign _ _ => [d]
  | For _ _ body _ => d :: flat_map (enclosing_bodies count_while (S d)) body
  | While test body orelse =>
      enclosing_bodies count_while d test
        ++ flat_map (enclosing_bodies count_while (if count_while then S d else d)) body
        ++ flat_map (enclosing_bodies count_while d) orelse
  | Call func args keywords =>
      d :: enclosing_bodies count_while d func
        ++ flat_map (enclosing_bodies count_while d) args
        ++ flat_map (enclosing_bodies count_while d) keywords
  | Return _ => [d]
  | Expr value | Attribute value _ => enclosing_bodies count_while d value
  | Constant _ | Name _ => []
  | Other children => flat_map (enclosing_bodies count_while d) children
  end.

(** The same for a whole module, the title line first. *)
Definition expected_depths (count_while : bool) (tree : module_node) : list nat :=
  O :: flat_map (enclosing_bodies count_while O) (body tree)
    ++ flat_map (enclosing_bodies count_while O) (type_ignores tree).

(** [b] stands right after [a] somewhere in [l]. *)
Fixpoint immediately_follows (a b : string) (l : list string) : bool :=
  match l with
  | x :: (y :: _) as t => (String.eqb x a && String.eqb y b) || immediately_follows a b t
  | _ => false
  end.

(** Reading, decoding or parsing [file] raises [e]. *)
Inductive fails `{Python} : file_arg -> Exception -> Prop :=
| read_raises e :
    fails (FileObj (inl e)) e
| open_raises path e :
    fails (FilePath path (inl e)) e
| decode_raises data e :
    utf8_decode data = inl e -> fails (FileObj (inr data)) e
| decode_raises_at path data e :
    utf8_decode data = inl e -> fails (FilePath path (inr data)) e
| parse_raises data text e :
    utf8_decode data = inr text -> ast_parse text = inl e ->
    fails (FileObj (inr data)) e
| parse_raises_at path data text e :
    utf8_decode data = inr text -> ast_parse (universal_newlines text) = inl e ->
    fails (FilePath path (inr data)) e.

(** [file] is read, decoded and parsed: [text] is the source the call
    holds, [tree] its syntax tree. *)
Inductive loads `{Python} : file_arg -> string -> module_node -> Prop :=
| loads_object data text tree :
    utf8_decode data = inr text -> ast_parse text = inr tree ->
    loads (FileObj (inr data)) text tree
| loads_path path data text tree :
    utf8_decode data = inr text -> ast_parse (universal_newlines text) = inr tree ->
    loads (FilePath path (inr data)) (universal_newlines text) tree.

(** [file] is read, decoded and parsed, and the visit of its tree is cut
    short by [e]. *)
Inductive interrupted `{Python} : file_arg -> Exception -> Prop :=
| visit_cut_short file text tree e :
    loads file text tree -> visit_raises tree = Some e -> interrupted file e.

(** No carriage return occurs in [s]. *)
Fixpoint no_CR (s : string) : bool :=
  match s with
  | String c t => negb (Ascii.eqb c CR) && no_CR t
  | EmptyString => true
  end.

(** The UTF-8 decoding of the contents [file] provides, when there are
    contents and they decode. *)
Definition decoded_contents `{Python} (file : file_arg) : option string :=
  match file with
  | FileObj (inr data) | FilePath _ (inr data) =>
      match utf8_decode data with
      | inr text => Some text
      | inl _ => None
      end
  | _ => None
  end.

(** The report for a syntax tree: the lines of a fresh visitor, joined. *)
Definition report `{Python} (tree : module_node) : string :=
  str_join nl (docs (visit_Module tree CodeDocGenerator_init)).

(** A line moved one level deeper: two more spaces in front, except for an
    import line, which every level writes without indentation. *)
Definition indent_more (line : string) : string :=
  if startswith line "- 📦" then line else ("  " ++ line)%string.

(** The call expressions a visit of [n] reaches: those under no assignment,
    return or import, in no loop header of a [for], and in no header of a
    class or function definition. *)
Fixpoint reached_calls (n : node) : nat :=
  match n with
  | Import _ | ImportFrom _ _ _ | Assign _ _ | Return _ | Constant _ | Name _ => O
  | ClassDef _ _ _ _ body _ => list_sum (map reached_calls body)
  | FunctionDef _ _ _ body _ _ => list_sum (map reached_calls body)
  | For _ _ body _ => list_sum (map reached_calls body)
  | While test body orelse =>
      reached_calls test + list_sum (map reached_calls body)
        + list_sum (map reached_calls orelse)
  | Call func args keywords =>
      S (reached_calls func + list_sum (map reached_calls args)
           + list_sum (map reached_calls keywords))
  | Expr value | Attribute value _ => reached_calls value
  | Other children => list_sum (map reached_calls children)
  end.

(** A line that is, after its indentation, a Markdown heading or a list
    item. *)
Definition is_markdown_block (line : string) : bool :=
  let s := lstrip line in
  startswith s "- " || startswith s "# " || startswith s "## " || startswith s "### ".

(** The name [visit_Call] writes for a callee. *)
Definition callee_name `{Python} (func : node) : string :=
  match func with
  | Attribute value attr => (unparse_or_mark value ++ "." ++ attr)%string
  | Name id => id
  | _ => EmptyString
  end.

(* ===================================================================== *)
(** ** Text lemmas *)
(* ===================================================================== *)

Lemma append_assoc (a b c : string) : ((a ++ b) ++ c)%string = (a ++ (b ++ c))%string.
Proof. induction a as [|x a IH]; simpl; [reflexivity | now rewrite IH]. Qed.

Lemma leading_spaces_indent (k : nat) (c : ascii) (rest : string) :
  Ascii.eqb c SP = false ->
  leading_spaces (str_repeat "  " k ++ String c rest) = 2 * k.
Proof.
  intros Hc. induction k as [|k IH].
  - simpl. now rewrite Hc.
  - cbn [str_repeat]. rewrite append_assoc. cbn [String.append leading_spaces].
    change (Ascii.eqb " " SP) with true. cbv iota. rewrite IH. lia.
Qed.

Lemma indent_depth_indent (k : nat) (c : ascii) (rest : string) :
  Ascii.eqb c SP = false ->
  indent_depth (str_repeat "  " k ++ String c rest) = k.
Proof.
  intros Hc. unfold indent_depth. rewrite leading_spaces_indent by assumption.
  rewrite Nat.mul_comm. apply Nat.div_mul. discriminate.
Qed.

Lemma lstrip_indent (k : nat) (c : ascii) (rest : string) :
  Ascii.eqb c SP = false ->
  lstrip (str_repeat "  " k ++ String c rest) = String c rest.
Proof.
  intros Hc. induction k as [|k IH].
  - simpl. now rewrite Hc.
  - cbn [str_repeat]. rewrite append_assoc. cbn [String.append lstrip].
    change (Ascii.eqb " " SP) with true. cbv iota. exact IH.
Qed.

Lemma startswith_append (p rest : string) : startswith (p ++ rest) p = true.
Proof.
  induction p as [|c p IH]; [reflexivity|].
  cbn [String.append startswith]. now rewrite Ascii.eqb_refl, IH.
Qed.

Lemma startswith_refl (p : string) : startswith p p = true.
Proof.
  induction p as [|c p IH]; [reflexivity|].
  cbn [startswith]. now rewrite Ascii.eqb_refl, IH.
Qed.

Lemma startswith_join (sep first : string) (rest : list string) :
  startswith (str_join sep (first :: rest)) first = true.
Proof.
  unfold str_join. destruct rest as [|second rest]; cbn [concat].
  - apply startswith_refl.
  - apply startswith_append.
Qed.

Lemma universal_newlines_no_CR (s : string) :
  no_CR s = true -> universal_newlines s = s.
Proof.
  induction s as [|c s IH]; simpl; [reflexivity|].
  destruct (Ascii.eqb c CR); simpl; [discriminate|].
  intros Hs. now rewrite IH.
Qed.

(* ===================================================================== *)
(** ** The visitor only appends, and restores its level *)
(* ===================================================================== *)

#[local] Open Scope list_scope.

Section frame.

Context `{Python}.

Lemma visit_each_appends (l : list node) :
  Forall appends l ->
  forall self,
    visit_each visit l self =
    {| docs := docs self ++ emitted_each (indent_level self) l;
       indent_level := indent_level self |}.
Proof.
  induction 1 as [|n l Hn _ IH]; intros self.
  - destruct self as [ds lvl]. cbn. now rewrite app_nil_r.
  - change (visit_each visit (n :: l) self) with (visit_each visit l (visit n self)).
    rewrite Hn, IH. cbn [docs indent_level emitted_each flat_map].
    now rewrite app_assoc.
Qed.

Lemma visit_appends (n : node) : appends n.
Proof.
  induction n using node_nested_ind; intros self; unfold emitted.
  - reflexivity.
  - reflexivity.
  - cbn [visit]. unfold visit_ClassDef, visit_body_elements, set_indent_level, docs_append, indent.
    cbn [docs indent_level]. rewrite !visit_each_appends by assumption.
    cbn [docs indent_level]. f_equal; [|lia]. now rewrite <- !app_assoc.
  - cbn [visit]. unfold visit_FunctionDef, visit_body_elements, set_indent_level, docs_append, indent.
    cbn [docs indent_level]. rewrite !visit_each_appends by assumption.
    cbn [docs indent_level]. f_equal; [|lia]. now rewrite <- !app_assoc.
  - reflexivity.
  - cbn [visit]. unfold visit_For, visit_body_elements, set_indent_level, docs_append, indent.
    cbn [docs indent_level]. rewrite !visit_each_appends by assumption.
    cbn [docs indent_level]. f_equal; [|lia]. now rewrite <- !app_assoc.
  - cbn [visit].
    rewrite IHn, (IHn {| docs := []; indent_level := indent_level self |}).
    rewrite !visit_each_appends by assumption.
    cbn [docs indent_level app]. f_equal. now rewrite <- !app_assoc.
  - cbn [visit]. unfold visit_Call, docs_append, indent. cbn [docs indent_level].
    rewrite IHn, (IHn {| docs := [] ++ _; indent_level := indent_level self |}).
    rewrite !visit_each_appends by assumption.
    cbn [docs indent_level app]. f_equal. now rewrite <- !app_assoc.
  - reflexivity.
  - cbn [visit]. rewrite IHn. reflexivity.
  - destruct self as [ds lvl]. cbn. now rewrite app_nil_r.
  - cbn [visit]. rewrite IHn. reflexivity.
  - destruct self as [ds lvl]. cbn. now rewrite app_nil_r.
  - cbn [visit]. rewrite !visit_each_appends by assumption. reflexivity.
Qed.

End frame.

(** The lines of each node class, by the class's method. *)
Section lines.

Context `{Python}.

Lemma visit_docs (n : node) (self : CodeDocGenerator) :
  docs (visit n self) = docs self ++ emitted (indent_level self) n.
Proof. now rewrite visit_appends. Qed.

Lemma visit_each_docs (l : list node) (self : CodeDocGenerator) :
  docs (visit_each visit l self) = docs self ++ emitted_each (indent_level self) l.
Proof.
  rewrite visit_each_appends; [reflexivity|].
  apply Forall_forall. intros n _. apply visit_appends.
Qed.

Lemma visit_each_level (l : list node) (self : CodeDocGenerator) :
  indent_level (visit_each visit l self) = indent_level self.
Proof.
  rewrite visit_each_appends; [reflexivity|].
  apply Forall_forall. intros n _. apply visit_appends.
Qed.

Lemma emitted_each_app (d : Z) (l1 l2 : list node) :
  emitted_each d (l1 ++ l2) = emitted_each d l1 ++ emitted_each d l2.
Proof. apply flat_map_app. Qed.

Lemma emitted_ClassDef d name lineno bases keywords body decorator_list :
  emitted d (ClassDef name lineno bases keywords body decorator_list) =
  class_line (str_mul "  " d) name lineno
    :: docstring_line (str_mul "  " d)
         (or_else (get_docstring body) "No class docstring found.")
    :: emitted_each (d + 1) body.
Proof.
  unfold emitted. cbn [visit].
  unfold visit_ClassDef, visit_body_elements, set_indent_level, docs_append, indent.
  cbn [docs indent_level]. now rewrite visit_each_docs.
Qed.

Lemma emitted_FunctionDef d name lineno node_args body decorator_list returns :
  emitted d (FunctionDef name lineno node_args body decorator_list returns) =
  function_line (str_mul "  " d) name lineno
    :: arguments_line (str_mul "  " d) (map arg (args node_args))
    :: docstring_line (str_mul "  " d)
         (or_else (get_docstring body) "No function docstring found.")
    :: emitted_each (d + 1) body.
Proof.
  unfold emitted. cbn [visit].
  unfold visit_FunctionDef, visit_body_elements, set_indent_level, docs_append, indent.
  cbn [docs indent_level]. now rewrite visit_each_docs.
Qed.

Lemma emitted_For d target iter body orelse :
  emitted d (For target iter body orelse) =
  for_line (str_mul "  " d) (unparse_or_mark target) (unparse_or_mark iter)
    :: emitted_each (d + 1) body.
Proof.
  unfold emitted. cbn [visit].
  unfold visit_For, visit_body_elements, set_indent_level, docs_append, indent.
  cbn [docs indent_level]. now rewrite visit_each_docs.
Qed.

Lemma emitted_While d test body orelse :
  emitted d (While test body orelse) =
  emitted d test ++ emitted_each d body ++ emitted_each d orelse.
Proof.
  unfold emitted at 1. cbn [visit].
  rewrite !visit_each_docs, !visit_each_level, visit_docs, visit_appends.
  cbn [docs indent_level app]. now rewrite app_assoc.
Qed.

Lemma emitted_Call d func args keywords :
  exists func_name,
    emitted d (Call func args keywords) =
    call_line (str_mul "  " d) func_name
      :: emitted d func ++ emitted_each d args ++ emitted_each d keywords.
Proof.
  eexists. unfold emitted at 1. cbn [visit].
  unfold visit_Call, docs_append, indent. cbn [docs indent_level].
  rewrite !visit_each_docs, !visit_each_level, visit_docs, visit_appends.
  cbn [docs indent_level app]. now rewrite <- !app_assoc.
Qed.

Lemma emitted_Other d children :
  emitted d (Other children) = emitted_each d children.
Proof. unfold emitted at 1. cbn [visit]. now rewrite visit_each_docs. Qed.

Lemma visit_Module_docs (tree : module_node) (self : CodeDocGenerator) :
  docs (visit_Module tree self) =
  docs self ++ title_line
    :: emitted_each (indent_level self) (body tree)
    ++ emitted_each (indent_level self) (type_ignores tree).
Proof.
  unfold visit_Module, docs_append.
  rewrite !visit_each_docs, !visit_each_level. cbn [docs indent_level].
  now rewrite <- !app_assoc.
Qed.

End lines.

(* ===================================================================== *)
(** ** Shapes of the lines *)
(* ===================================================================== *)

Lemma str_mul_of_nat (s : string) (k : nat) : str_mul s (Z.of_nat k) = str_repeat s k.
Proof. unfold str_mul. now rewrite Nat2Z.id. Qed.

(** A line that starts, after its indentation, with a dash or with two
    hashes is not the title. *)
Lemma indented_line_not_title (k : nat) (c1 c2 : ascii) (rest : string) :
  c1 = "-"%char \/ (c1 = "#"%char /\ c2 = "#"%char) ->
  (str_repeat "  " k ++ String c1 (String c2 rest))%string <> title_line.
Proof.
  intros Hc. destruct k as [|k].
  - destruct Hc as [-> | [-> ->]]; discriminate.
  - discriminate.
Qed.

Section shapes.

Context `{Python}.

Lemma count_title_zero (l : list string) :
  Forall (fun line => line <> title_line) l -> count_occ string_dec l title_line = O.
Proof.
  induction 1 as [|x l Hx _ IH]; [reflexivity|].
  cbn [count_occ]. destruct (string_dec x title_line); [contradiction | exact IH].
Qed.

Lemma Forall_flat_map {A B} (P : B -> Prop) (f : A -> list B) (l : list A) :
  Forall (fun a => Forall P (f a)) l -> Forall P (flat_map f l).
Proof.
  induction 1 as [|a l Ha _ IH]; cbn [flat_map]; [constructor|].
  apply Forall_app. now split.
Qed.

Lemma emitted_not_title (n : node) :
  forall d, Forall (fun line => line <> title_line) (emitted d n).
Proof.
  assert (each : forall l, Forall (fun n => forall d,
            Forall (fun line => line <> title_line) (emitted d n)) l ->
          forall d, Forall (fun line => line <> title_line) (emitted_each d l)).
  { intros l Hl d. apply Forall_flat_map.
    eapply Forall_impl; [|exact Hl]. intros a Ha. apply Ha. }
  assert (pre : forall d c1 c2 rest,
            c1 = "-"%char \/ (c1 = "#"%char /\ c2 = "#"%char) ->
            (str_mul "  " d ++ String c1 (String c2 rest))%string <> title_line).
  { intros d c1 c2 rest Hc. now apply indented_line_not_title. }
  induction n using node_nested_ind; intros d.
  - repeat constructor. discriminate.
  - repeat constructor. discriminate.
  - rewrite emitted_ClassDef. repeat apply Forall_cons; [| |now apply each].
    + apply pre. right. now split.
    + apply pre. now left.
  - rewrite emitted_FunctionDef. repeat apply Forall_cons; [| | |now apply each].
    + apply pre. right. now split.
    + apply pre. now left.
    + apply pre. now left.
  - repeat constructor. apply pre. now left.
  - rewrite emitted_For. apply Forall_cons; [|now apply each].
    apply pre. now left.
  - rewrite emitted_While. rewrite !Forall_app. repeat split; auto.
  - destruct (emitted_Call d n args0 keywords) as [fname ->].
    apply Forall_cons; [apply pre; now left|].
    rewrite !Forall_app. repeat split; auto.
  - repeat constructor. apply pre. now left.
  - apply IHn.
  - constructor.
  - apply IHn.
  - constructor.
  - rewrite emitted_Other. now apply each.
Qed.

Lemma emitted_each_not_title (l : list node) (d : Z) :
  Forall (fun line => line <> title_line) (emitted_each d l).
Proof.
  apply Forall_flat_map, Forall_forall. intros n _. apply emitted_not_title.
Qed.

(** The depth read off a line written with prefix ["  " * k]. *)
Lemma indent_depth_prefixed (k : nat) (c : ascii) (rest : string) :
  Ascii.eqb c SP = false ->
  indent_depth (str_mul "  " (Z.of_nat k) ++ String c rest) = k.
Proof. intros Hc. rewrite str_mul_of_nat. now apply indent_depth_indent. Qed.

Lemma emitted_depths (n : node) :
  forall k, map indent_depth (emitted (Z.of_nat k) n) = enclosing_bodies false k n.
Proof.
  assert (each : forall l, Forall (fun n => forall k,
            map indent_depth (emitted (Z.of_nat k) n) = enclosing_bodies false k n) l ->
          forall k, map indent_depth (emitted_each (Z.of_nat k) l)
                    = flat_map (enclosing_bodies false k) l).
  { induction 1 as [|a l Ha _ IH]; intros k; [reflexivity|].
    cbn [emitted_each flat_map]. rewrite map_app, Ha. f_equal. apply IH. }
  assert (next : forall k, (Z.of_nat k + 1)%Z = Z.of_nat (S k)) by (intros; lia).
  induction n using node_nested_ind; intros k; cbn [enclosing_bodies].
  - reflexivity.
  - reflexivity.
  - rewrite emitted_ClassDef, next. cbn [map]. rewrite each by assumption.
    unfold class_line, docstring_line.
    cbn [String.append]. now rewrite !indent_depth_prefixed by reflexivity.
  - rewrite emitted_FunctionDef, next. cbn [map]. rewrite each by assumption.
    unfold function_line, arguments_line, docstring_line.
    cbn [String.append]. now rewrite !indent_depth_prefixed by reflexivity.
  - unfold emitted. cbn [visit]. unfold visit_Assign, docs_append, indent, assignment_line.
    cbn [docs indent_level app map]. cbn [String.append]. now rewrite indent_depth_prefixed by reflexivity.
  - rewrite emitted_For, next. cbn [map]. rewrite each by assumption.
    unfold for_line. cbn [String.append]. now rewrite indent_depth_prefixed by reflexivity.
  - rewrite emitted_While, !map_app, IHn, !each by assumption. reflexivity.
  - destruct (emitted_Call (Z.of_nat k) n args0 keywords) as [fname ->].
    cbn [map]. rewrite !map_app, IHn, !each by assumption.
    unfold call_line. cbn [String.append]. now rewrite indent_depth_prefixed by reflexivity.
  - unfold emitted. cbn [visit]. unfold visit_Return, docs_append, indent, return_line.
    cbn [docs indent_level app map]. cbn [String.append]. now rewrite indent_depth_prefixed by reflexivity.
  - apply IHn.
  - reflexivity.
  - apply IHn.
  - reflexivity.
  - rewrite emitted_Other. now apply each.
Qed.

Lemma emitted_each_depths (l : list node) (k : nat) :
  map indent_depth (emitted_each (Z.of_nat k) l) = flat_map (enclosing_bodies false k) l.
Proof.
  induction l as [|n l IH]; [reflexivity|].
  cbn [emitted_each flat_map]. rewrite map_app, emitted_depths. f_equal. exact IH.
Qed.

End shapes.

(* ===================================================================== *)
(** ** Properties of the visitor *)
(* ===================================================================== *)

Section visitor_properties.

Context `{Python}.

(** C8 — the indentation counter obeys stack discipline: when the visit of
    a node, of the statements of a body, or of a whole module (each with
    everything below it) completes, [indent_level] has the value it had
    before that visit began, whatever that value was. *)
Theorem indent_level_restored (self : CodeDocGenerator) :
  (forall n, indent_level (visit n self) = indent_level self)
  /\ (forall body, indent_level (visit_body_elements visit body self) = indent_level self)
  /\ (forall tree, indent_level (visit_Module tree self) = indent_level self).
Proof.
  split; [|split].
  - intros n. now rewrite visit_appends.
  - intros body. apply visit_each_level.
  - intros tree. unfold visit_Module. now rewrite !visit_each_level.
Qed.

(** C9 — a while loop writes no line of its own: visiting it among the
    statements of a body appends exactly the lines of its test, of its
    body's statements and of its else-statements, all at the level at
    which the statements after it (its siblings) are visited. A for loop
    in the same place writes its loop line and visits its body one level
    deeper. *)
Theorem while_loop_is_transparent (self : CodeDocGenerator) test body orelse siblings :
  let d := indent_level self in
  docs (visit_body_elements visit (While test body orelse :: siblings) self)
  = docs self
      ++ (emitted d test ++ emitted_each d body ++ emitted_each d orelse)
      ++ emitted_each d siblings
  /\ forall target iter,
       docs (visit_body_elements visit (For target iter body orelse :: siblings) self)
       = docs self
           ++ (for_line (indent self) (unparse_or_mark target) (unparse_or_mark iter)
                 :: emitted_each (d + 1) body)
           ++ emitted_each d siblings.
Proof.
  intros d. unfold visit_body_elements. split; [|intros target iter].
  - rewrite visit_each_docs. cbn [emitted_each flat_map].
    now rewrite emitted_While.
  - rewrite visit_each_docs. cbn [emitted_each flat_map].
    now rewrite emitted_For.
Qed.

(** C7 — for every module, the first line of the documentation a fresh
    visitor produces is the title line, the title line occurs exactly once
    among the lines, and the report (the lines joined) starts with it. *)
Theorem title_line_first_and_once (tree : module_node) :
  hd_error (docs (visit_Module tree CodeDocGenerator_init)) = Some title_line
  /\ count_occ string_dec (docs (visit_Module tree CodeDocGenerator_init)) title_line = 1
  /\ startswith (report tree) title_line = true.
Proof.
  unfold report. rewrite visit_Module_docs.
  cbn [docs CodeDocGenerator_init indent_level app hd_error count_occ].
  split; [reflexivity|]. split.
  - destruct (string_dec title_line title_line) as [_|Hne]; [|now elim Hne].
    f_equal. apply count_title_zero, Forall_app.
    split; apply emitted_each_not_title.
  - apply startswith_join.
Qed.

(** C1, as amended — for every module, the indentation depth of every
    line a fresh visitor emits equals the number of class-definition,
    function-definition and for-loop bodies that enclose the node emitting
    it, 0 at top level; the title line and every import line have depth 0
    wherever the import stands. The body of a while loop is not counted. *)
Theorem indentation_counts_enclosing_bodies (tree : module_node) :
  map indent_depth (docs (visit_Module tree CodeDocGenerator_init))
  = expected_depths false tree.
Proof.
  rewrite visit_Module_docs. unfold expected_depths.
  cbn [docs CodeDocGenerator_init indent_level app map].
  rewrite map_app. change 0%Z with (Z.of_nat 0).
  now rewrite !emitted_each_depths.
Qed.

End visitor_properties.

#[local] Existing Instance CPython.interpreter.

(** C1, as the specification words it, fails on [while c: f()]: the call
    line of the loop body has depth 0, and one loop body encloses it. *)
Lemma while_body_line_not_indented :
  docs (visit_Module CPython.while_loop CodeDocGenerator_init)
    = [title_line; call_line "" "f"]
  /\ map indent_depth (docs (visit_Module CPython.while_loop CodeDocGenerator_init))
     = [0; 0]%nat
  /\ expected_depths true CPython.while_loop = [0; 1]%nat.
Proof. repeat split; vm_compute; reflexivity. Qed.

(* ===================================================================== *)
(** ** Properties of the statements *)
(* ===================================================================== *)

Lemma or_else_nonempty (s default : string) :
  s <> EmptyString -> or_else (Some s) default = s.
Proof. destruct s; [now intros [] | reflexivity]. Qed.

Lemma is_call_line_prefixed (d : Z) (c : ascii) (rest : string) :
  Ascii.eqb c SP = false ->
  is_call_line (str_mul "  " d ++ String c rest)
  = startswith (String c rest) "- 📞 Function call: `".
Proof.
  intros Hc. unfold is_call_line, str_mul. now rewrite lstrip_indent.
Qed.

Lemma call_line_is_call_line (d : Z) (func_name : string) :
  is_call_line (call_line (str_mul "  " d) func_name) = true.
Proof.
  unfold call_line. cbn [String.append].
  rewrite is_call_line_prefixed by reflexivity. reflexivity.
Qed.

Section statement_properties.

Context `{Python}.

Lemma get_docstring_leading (body : list node) :
  get_docstring body = option_map inspect_cleandoc (leading_literal body).
Proof.
  unfold get_docstring, leading_literal.
  repeat match goal with
         | |- context [match ?x with _ => _ end] => destruct x; try reflexivity
         end.
Qed.

(** C2, as amended — the docstring line of a class or function definition
    (the second line of a class, the third of a function) carries the
    placeholder when the body does not start with a bare string literal;
    when it does, it carries the literal's text as [inspect.cleandoc] cleans
    it, unless the cleaned text is empty, and then the placeholder. *)
Theorem docstring_field_is_cleaned_literal
    d name lineno bases keywords node_args body decorator_list returns :
  let prefix := str_mul "  " d in
  let class_field :=
    nth 1 (emitted d (ClassDef name lineno bases keywords body decorator_list)) "" in
  let function_field :=
    nth 2 (emitted d (FunctionDef name lineno node_args body decorator_list returns)) "" in
  (leading_literal body = None ->
     class_field = docstring_line prefix "No class docstring found."
     /\ function_field = docstring_line prefix "No function docstring found.")
  /\ (forall text,
        leading_literal body = Some text -> inspect_cleandoc text <> "" ->
        class_field = docstring_line prefix (inspect_cleandoc text)
        /\ function_field = docstring_line prefix (inspect_cleandoc text))
  /\ (forall text,
        leading_literal body = Some text -> inspect_cleandoc text = "" ->
        class_field = docstring_line prefix "No class docstring found."
        /\ function_field = docstring_line prefix "No function docstring found.").
Proof.
  intros prefix class_field function_field.
  subst class_field function_field.
  rewrite emitted_ClassDef, emitted_FunctionDef. cbn [nth].
  rewrite get_docstring_leading.
  split; [|split].
  - intros ->. split; reflexivity.
  - intros text -> Hclean. cbn [option_map].
    rewrite !or_else_nonempty by assumption. split; reflexivity.
  - intros text -> Hclean. cbn [option_map]. rewrite Hclean. split; reflexivity.
Qed.

(** C3, as amended — a plain assignment (an [Assign] node), a return
    statement, an import and a from-import each write exactly one line,
    which is no call line; a plain for loop (a [For] node) writes its loop
    line, no call line either, and then only the lines of its body. So
    whatever call stands in the value of a plain assignment, in a returned
    value or in the iterated expression of a plain for loop, it adds no
    call line. A statement of a class without a visit method (an augmented,
    annotated or walrus assignment, an async for loop) is walked by
    default, and a call among its children does write its call line. *)
Theorem statement_expressions_not_visited (d : Z) :
  (forall targets value,
     exists line, emitted d (Assign targets value) = [line] /\ is_call_line line = false)
  /\ (forall value,
     exists line, emitted d (Return value) = [line] /\ is_call_line line = false)
  /\ (forall names,
     exists line, emitted d (Import names) = [line] /\ is_call_line line = false)
  /\ (forall module names level,
     exists line,
       emitted d (ImportFrom module names level) = [line] /\ is_call_line line = false)
  /\ (forall target iter body orelse,
     exists line,
       emitted d (For target iter body orelse) = line :: emitted_each (d + 1) body
       /\ is_call_line line = false)
  /\ (forall targets target body orelse func args keywords,
     let call := Call func args keywords in
     filter is_call_line (emitted d (Assign targets call)) = []
     /\ filter is_call_line (emitted d (Return (Some call))) = []
     /\ filter is_call_line (emitted d (For target call body orelse))
        = filter is_call_line (emitted_each (d + 1) body))
  /\ (forall before func args keywords after,
     exists line,
       is_call_line line = true
       /\ In line (emitted d (Other (before ++ Call func args keywords :: after)))).
Proof.
  assert (assign : forall targets value,
            exists line, emitted d (Assign targets value) = [line]
                         /\ is_call_line line = false).
  { intros. eexists. split; [reflexivity|].
    unfold indent, assignment_line. cbn [indent_level String.append].
    rewrite is_call_line_prefixed by reflexivity. reflexivity. }
  assert (ret_ : forall value,
            exists line, emitted d (Return value) = [line] /\ is_call_line line = false).
  { intros. eexists. split; [reflexivity|].
    unfold indent, return_line. cbn [indent_level String.append].
    rewrite is_call_line_prefixed by reflexivity. reflexivity. }
  assert (for_ : forall target iter body orelse,
            exists line,
              emitted d (For target iter body orelse) = line :: emitted_each (d + 1) body
              /\ is_call_line line = false).
  { intros. eexists. split; [apply emitted_For|].
    unfold for_line. cbn [String.append].
    rewrite is_call_line_prefixed by reflexivity. reflexivity. }
  split; [exact assign|]. split; [exact ret_|].
  split; [|split; [|split; [exact for_|split]]].
  - intros names. eexists. split; reflexivity.
  - intros module names level. eexists. split; reflexivity.
  - intros targets target body orelse func args keywords call.
    split; [|split].
    + destruct (assign targets call) as (line & -> & Hline). cbn [filter].
      now rewrite Hline.
    + destruct (ret_ (Some call)) as (line & -> & Hline). cbn [filter].
      now rewrite Hline.
    + destruct (for_ target call body orelse) as (line & -> & Hline). cbn [filter].
      now rewrite Hline.
  - intros before func args keywords after.
    destruct (emitted_Call d func args keywords) as [func_name Hcall].
    exists (call_line (str_mul "  " d) func_name).
    split; [apply call_line_is_call_line|].
    rewrite emitted_Other, emitted_each_app. cbn [emitted_each flat_map].
    rewrite Hcall. apply in_or_app. right. now left.
Qed.

(** C4, as amended — a call reached by the traversal writes its call line
    and is then descended into: a call among its arguments writes its own
    call line after the enclosing call's line, with exactly the lines of
    the callee and of the earlier arguments in between (so immediately
    after it when those write nothing), and the lines of the whole
    statement come before those of the statements that follow it. *)
Theorem nested_call_line_after_enclosing
    (d : Z) func earlier nested_func nested_args nested_keywords later keywords :
  let nested := Call nested_func nested_args nested_keywords in
  let enclosing := Call func (earlier ++ nested :: later) keywords in
  (exists outer inner below,
     is_call_line outer = true /\ is_call_line inner = true
     /\ emitted d nested = inner :: below
     /\ emitted d enclosing
        = outer :: (emitted d func ++ emitted_each d earlier)
            ++ (inner :: below) ++ emitted_each d later ++ emitted_each d keywords)
  /\ (forall lines siblings,
        docs (visit_body_elements visit (Expr enclosing :: siblings)
                {| docs := lines; indent_level := d |})
        = lines ++ emitted d enclosing ++ emitted_each d siblings).
Proof.
  intros nested enclosing. subst nested enclosing. split.
  - destruct (emitted_Call d nested_func nested_args nested_keywords) as [inner_name Hin].
    destruct (emitted_Call d func
                (earlier ++ Call nested_func nested_args nested_keywords :: later) keywords)
      as [outer_name Hout].
    exists (call_line (str_mul "  " d) outer_name),
           (call_line (str_mul "  " d) inner_name).
    eexists. repeat split.
    + apply call_line_is_call_line.
    + apply call_line_is_call_line.
    + exact Hin.
    + rewrite Hout, emitted_each_app.
      cbn [emitted_each flat_map]. fold (emitted_each d later).
      rewrite Hin. now rewrite <- !app_assoc.
  - intros lines siblings. unfold visit_body_elements.
    rewrite visit_each_docs. reflexivity.
Qed.

End statement_properties.

(** C3, as the specification words it, fails on the augmented assignment
    [x += g()]: no line is written for the assignment, and the call in its
    value writes a call line. *)
Lemma augmented_assignment_call_line :
  docs (visit_Module CPython.augmented_assignment CodeDocGenerator_init)
    = [title_line; call_line "" "g"]
  /\ filter is_call_line
       (docs (visit_Module CPython.augmented_assignment CodeDocGenerator_init))
     = [call_line "" "g"].
Proof. split; vm_compute; reflexivity. Qed.

(** C2, as the specification words it, fails on a class whose body is the
    empty string literal: the body starts with a bare string literal, its
    text is empty, and the docstring line carries the placeholder. A
    literal with leading spaces is reported without them. *)
Lemma empty_docstring_reported_missing :
  leading_literal [Expr (Constant (CStr ""))] = Some ""
  /\ docs (visit_Module CPython.empty_docstring CodeDocGenerator_init)
     = [title_line; class_line "" "C" 1; docstring_line "" "No class docstring found."]
  /\ leading_literal [Expr (Constant (CStr "  doc"))] = Some "  doc"
  /\ docs (visit_Module CPython.padded_docstring CodeDocGenerator_init)
     = [title_line; function_line "" "f" 1; arguments_line "" [];
        docstring_line "" "doc"].
Proof. repeat split; vm_compute; reflexivity. Qed.

(** C2 at the class [C] documented [doc]: the literal is clean already
    and is reported as it is. *)
Lemma documented_class_docstring :
  leading_literal
    [Expr (Constant (CStr "doc")); Assign [Name "x"] (Constant (CInt 1))] = Some "doc"
  /\ nth 1 (emitted 0
              (ClassDef "C" 1 [] []
                 [Expr (Constant (CStr "doc")); Assign [Name "x"] (Constant (CInt 1))] []))
        "" = docstring_line "" "doc".
Proof.
  split; [reflexivity|].
  refine (proj1 (proj1 (proj2
            (docstring_field_is_cleaned_literal 0 "C" 1 [] [] {| args := [] |}
               [Expr (Constant (CStr "doc")); Assign [Name "x"] (Constant (CInt 1))]
               [] None))
            "doc" eq_refl _)).
  discriminate.
Defined.

(** C4, as the specification words it, fails on [f(g(), h())]: the call
    [h()] is an argument of the call [f(...)], and its line does not stand
    immediately after the line of [f]; the line of [g] does. *)
Lemma second_argument_call_not_adjacent :
  docs (visit_Module CPython.nested_calls CodeDocGenerator_init)
    = [title_line; call_line "" "f"; call_line "" "g"; call_line "" "h"]
  /\ immediately_follows (call_line "" "f") (call_line "" "h")
       (docs (visit_Module CPython.nested_calls CodeDocGenerator_init)) = false
  /\ immediately_follows (call_line "" "f") (call_line "" "g")
       (docs (visit_Module CPython.nested_calls CodeDocGenerator_init)) = true.
Proof. repeat split; vm_compute; reflexivity. Qed.

(* ===================================================================== *)
(** ** Properties of analyze_code *)
(* ===================================================================== *)

Section analysis_properties.

Context `{Python}.

Lemma analyze_code_loads (file : file_arg) (text : string) (tree : module_node) :
  loads file text tree ->
  analyze_code file =
  match visit_raises tree with
  | Some e => ("❌ Error: " ++ exc_str e, "")%string
  | None => (report tree, text)
  end.
Proof.
  intros [data decoded parsed Hdecode Hparse | path data decoded parsed Hdecode Hparse];
    unfold analyze_code, read_source, run_visit, report; cbn [bind];
    rewrite Hdecode; cbn [bind ret]; rewrite Hparse; cbn [bind];
    destruct (visit_raises parsed); reflexivity.
Qed.

Lemma analyze_code_completes (file : file_arg) (text : string) (tree : module_node) :
  loads file text tree -> visit_raises tree = None ->
  analyze_code file = (report tree, text).
Proof. intros Hload Hend. now rewrite (analyze_code_loads _ _ _ Hload), Hend. Qed.

Lemma analyze_code_interrupted (file : file_arg) (e : Exception) :
  interrupted file e -> analyze_code file = ("❌ Error: " ++ exc_str e, "")%string.
Proof.
  intros [f text tree e' Hload Hcut]. now rewrite (analyze_code_loads _ _ _ Hload), Hcut.
Qed.

Lemma loads_unique (file : file_arg) text1 tree1 text2 tree2 :
  loads file text1 tree1 -> loads file text2 tree2 -> text1 = text2 /\ tree1 = tree2.
Proof.
  intros [data d1 p1 Hd1 Hp1 | path data d1 p1 Hd1 Hp1] Hsecond;
    inversion Hsecond; subst.
  - assert (d1 = text2) by congruence. subst. split; congruence.
  - match goal with
    | Hd2 : utf8_decode data = inr ?d2 |- _ =>
        assert (d1 = d2) by congruence; subst
    end.
    split; congruence.
Qed.

Lemma echo_empty_on_failure (file : file_arg) (e : Exception) :
  fails file e -> snd (analyze_code file) = "".
Proof.
  intros Hfail. unfold analyze_code, read_source, bind, ret.
  destruct Hfail as [e | path e | data e Hd | path data e Hd
                    | data text e Hd Hp | path data text e Hd Hp];
    try rewrite Hd; try rewrite Hp; reflexivity.
Qed.

(** Every argument but [None] either loads or fails. *)
Lemma loads_or_fails (file : file_arg) :
  file = PyNone
  \/ (exists text tree, loads file text tree)
  \/ (exists e, fails file e).
Proof.
  destruct file as [|[e|data]|path [e|data]].
  - now left.
  - right. right. exists e. constructor.
  - right. destruct (utf8_decode data) as [e|text] eqn:Hd.
    + right. exists e. now constructor.
    + destruct (ast_parse text) as [e|tree] eqn:Hp.
      * right. exists e. now apply parse_raises with (text := text).
      * left. exists text, tree. now constructor.
  - right. right. exists e. constructor.
  - right. destruct (utf8_decode data) as [e|text] eqn:Hd.
    + right. exists e. now constructor.
    + destruct (ast_parse (universal_newlines text)) as [e|tree] eqn:Hp.
      * right. exists e. now apply parse_raises_at with (text := text).
      * left. exists (universal_newlines text), tree. now constructor.
Qed.

(** C5 — whenever reading the input, decoding it or parsing it raises an
    exception [e], the call returns the pair of the message
    ["❌ Error: " + str(e)] and the empty string; being a value of the
    function, the pair is returned and nothing is raised. *)
Theorem failure_returns_error_pair (file : file_arg) (e : Exception) :
  fails file e -> analyze_code file = ("❌ Error: " ++ exc_str e, "")%string.
Proof.
  intros Hfail. unfold analyze_code, read_source.
  destruct Hfail as [e | path e | data e Hdecode | path data e Hdecode
                    | data text e Hdecode Hparse | path data text e Hdecode Hparse];
    cbn [bind].
  - reflexivity.
  - reflexivity.
  - now rewrite Hdecode.
  - now rewrite Hdecode.
  - rewrite Hdecode. cbn [bind]. now rewrite Hparse.
  - rewrite Hdecode. cbn [bind ret]. now rewrite Hparse.
Qed.

(** X7 — what a call echoes. Either the input is read, decoded and parsed
    and the visit reaches its end, and the call returns the report with the
    source text it read; or it is the no-input call, or reading, decoding
    or parsing raised, or the visit was cut short, and the second element
    is the empty string. The source text read is the UTF-8 decoding of the
    contents for a file object; for a path it is that decoding with
    universal newlines applied (a text-mode read), hence the decoding
    itself when it holds no carriage return. *)
Theorem source_echoed_up_to_newlines (file : file_arg) :
  ((exists text tree,
      loads file text tree /\ visit_raises tree = None
      /\ analyze_code file = (report tree, text))
   \/ ((file = PyNone \/ exists e, fails file e \/ interrupted file e)
       /\ snd (analyze_code file) = ""))
  /\ (forall text tree,
        loads file text tree ->
        exists decoded,
          decoded_contents file = Some decoded
          /\ text = match file with
                    | FilePath _ _ => universal_newlines decoded
                    | _ => decoded
                    end
          /\ (no_CR decoded = true -> text = decoded)).
Proof.
  split.
  - destruct (loads_or_fails file) as [-> | [(text & tree & Hload) | (e & Hfail)]].
    + right. split; [now left | reflexivity].
    + destruct (visit_raises tree) as [e|] eqn:Hcut.
      * right. assert (Hint : interrupted file e) by (econstructor; eassumption).
        split; [right; exists e; now right|].
        now rewrite (analyze_code_interrupted _ _ Hint).
      * left. exists text, tree.
        repeat split; [assumption.. | now apply analyze_code_completes].
    + right. split; [right; exists e; now left | now apply echo_empty_on_failure with e].
  - intros text tree
      [data decoded parsed Hdecode Hparse | path data decoded parsed Hdecode Hparse];
      exists decoded; cbn [decoded_contents]; rewrite Hdecode.
    + repeat split.
    + repeat split. intros Hcr. now apply universal_newlines_no_CR.
Qed.

(** X8 — the two kinds of argument agree as far as line endings allow: a
    file object and a path that provide the same (the same bytes, or the
    same exception) return the same pair whenever the decoded text holds no
    carriage return. *)
Theorem object_and_path_agree_without_CR (provided : result (list byte)) (path : string) :
  (forall data decoded,
     provided = inr data -> utf8_decode data = inr decoded -> no_CR decoded = true) ->
  analyze_code (FileObj provided) = analyze_code (FilePath path provided).
Proof.
  intros Hclean. destruct provided as [e|data]; [reflexivity|].
  unfold analyze_code, read_source. cbn [bind].
  destruct (utf8_decode data) as [e|decoded] eqn:Hdecode; [reflexivity|].
  cbn [bind ret].
  now rewrite (universal_newlines_no_CR decoded (Hclean data decoded eq_refl Hdecode)).
Qed.

End analysis_properties.

(** C5 at the source [(]: parsing raises, and the message of the syntax
    error is returned with an empty source. *)
Lemma unclosed_parenthesis_reported :
  fails (FileObj (inr (list_byte_of_string "(")))
        (CPython.SyntaxError "'(' was never closed (<unknown>, line 1)")
  /\ analyze_code (FileObj (inr (list_byte_of_string "(")))
     = ("❌ Error: '(' was never closed (<unknown>, line 1)", "").
Proof.
  assert (Hfail : fails (FileObj (inr (list_byte_of_string "(")))
                    (CPython.SyntaxError "'(' was never closed (<unknown>, line 1)")).
  { apply parse_raises with (text := "("); reflexivity. }
  split; [exact Hfail|].
  exact (failure_returns_error_pair _ _ Hfail).
Defined.

(** C6 — the code at the failing input, a path to a file that holds
    [import os] and a carriage return, line feed pair: the call succeeds,
    the contents decode to that text, and the source returned ends in a
    lone line feed, so it is not the contents. *)
Lemma crlf_file_not_echoed :
  let file := FilePath "crlf.py" (inr (list_byte_of_string ("import os" ++ crlf))) in
  decoded_contents file = Some ("import os" ++ crlf)%string
  /\ analyze_code file = (report CPython.import_os, "import os" ++ nl)%string
  /\ String.eqb (snd (analyze_code file)) ("import os" ++ crlf) = false.
Proof. repeat split; vm_compute; reflexivity. Qed.

(** X7 at that file: the source read is the decoding with universal
    newlines applied. *)
Lemma crlf_sources :
  let data := list_byte_of_string ("import os" ++ crlf) in
  (exists decoded,
     decoded_contents (FilePath "crlf.py" (inr data)) = Some decoded
     /\ ("import os" ++ nl)%string = universal_newlines decoded)
  /\ loads (FilePath "crlf.py" (inr data)) ("import os" ++ nl)%string CPython.import_os.
Proof.
  intros data.
  assert (Hload : loads (FilePath "crlf.py" (inr data))
                    (universal_newlines ("import os" ++ crlf)) CPython.import_os).
  { apply loads_path; reflexivity. }
  split; [|exact Hload].
  destruct (proj2 (source_echoed_up_to_newlines _) _ _ Hload)
    as (decoded & Hdecoded & Htext & _).
  exists decoded. split; [exact Hdecoded | exact Htext].
Defined.

(** X8 at a file object and a path over the bytes of [import os]. *)
Lemma object_and_path_agree_on_import :
  (forall data decoded,
     (inr (list_byte_of_string "import os") : result (list byte)) = inr data ->
     utf8_decode data = inr decoded -> no_CR decoded = true)
  /\ analyze_code (FileObj (inr (list_byte_of_string "import os")))
     = analyze_code (FilePath "a.py" (inr (list_byte_of_string "import os"))).
Proof.
  assert (Hclean : forall data decoded,
            (inr (list_byte_of_string "import os") : result (list byte)) = inr data ->
            utf8_decode data = inr decoded -> no_CR decoded = true).
  { intros data decoded Hdata Hdecode. injection Hdata as <-.
    vm_compute in Hdecode. injection Hdecode as <-. reflexivity. }
  split; [exact Hclean|].
  exact (object_and_path_agree_without_CR _ "a.py" Hclean).
Defined.

(** C10 — the code at the failing input, a file object and a path over the
    same bytes, [import os] and a carriage return, line feed pair: both
    calls succeed with the same report, and the sources returned differ. *)
Lemma object_and_path_differ_on_crlf :
  let data := list_byte_of_string ("import os" ++ crlf) in
  analyze_code (FileObj (inr data)) = (report CPython.import_os, "import os" ++ crlf)%string
  /\ analyze_code (FilePath "crlf.py" (inr data))
     = (report CPython.import_os, "import os" ++ nl)%string
  /\ String.eqb (snd (analyze_code (FileObj (inr data))))
                (snd (analyze_code (FilePath "crlf.py" (inr data)))) = false.
Proof. repeat split; vm_compute; reflexivity. Qed.

(* ===================================================================== *)
(** ** The scenarios of the specification *)
(* ===================================================================== *)

(** Scenario A: [import os]. *)
Example scenario_import :
  analyze_code (FileObj (inr (list_byte_of_string "import os")))
  = (title_line ++ nl ++ import_line "os", "import os")%string.
Proof. vm_compute. reflexivity. Qed.

(** Scenario C: no file. *)
Example scenario_no_file :
  snd (analyze_code PyNone) = ""
  /\ startswith (fst (analyze_code PyNone)) "### ⚠️ No file uploaded!" = true.
Proof. split; vm_compute; reflexivity. Qed.

(** Scenario D: a stray byte and an unclosed parenthesis. *)
Example scenario_errors :
  analyze_code (FileObj (inr [xff]))
  = ("❌ Error: 'utf-8' codec can't decode byte 0xff in position 0: invalid start byte",
     "")
  /\ analyze_code (FilePath "broken.py" (inr (list_byte_of_string "(")))
     = ("❌ Error: '(' was never closed (<unknown>, line 1)", "").
Proof. split; vm_compute; reflexivity. Qed.

(** Scenario E: a documented class with an assignment in its body. *)
Example scenario_class :
  docs (visit_Module CPython.documented_class CodeDocGenerator_init)
  = [title_line; class_line "" "C" 1; docstring_line "" "doc";
     assignment_line "  " "x" "1"].
Proof. vm_compute. reflexivity. Qed.

(* ===================================================================== *)
(** ** Further properties of the visitor *)
(* ===================================================================== *)

Lemma str_mul_succ (s : string) (d : Z) :
  (0 <= d)%Z -> str_mul s (d + 1) = (s ++ str_mul s d)%string.
Proof.
  intros Hd. unfold str_mul.
  replace (Z.to_nat (d + 1)) with (S (Z.to_nat d)) by lia. reflexivity.
Qed.

Lemma indent_more_prefixed (d : Z) (text : string) :
  (0 <= d)%Z -> startswith text "- 📦" = false ->
  indent_more (str_mul "  " d ++ text) = (str_mul "  " (d + 1) ++ text)%string.
Proof.
  intros Hd Htext. rewrite str_mul_succ by assumption.
  unfold indent_more, str_mul. destruct (Z.to_nat d) as [|k].
  - cbn [str_repeat String.append]. now rewrite Htext.
  - cbn [str_repeat String.append startswith].
    change (Ascii.eqb "-" " ") with false. cbn [andb]. reflexivity.
Qed.

Lemma is_markdown_block_prefixed (d : Z) (c : ascii) (rest : string) :
  Ascii.eqb c SP = false ->
  is_markdown_block (str_mul "  " d ++ String c rest) = is_markdown_block (String c rest).
Proof.
  intros Hc. unfold is_markdown_block, str_mul. rewrite lstrip_indent by assumption.
  cbn [lstrip]. now rewrite Hc.
Qed.

Section further_visitor_properties.

Context `{Python}.

Lemma emitted_Call_named d func args keywords :
  emitted d (Call func args keywords) =
  call_line (str_mul "  " d) (callee_name func)
    :: emitted d func ++ emitted_each d args ++ emitted_each d keywords.
Proof.
  unfold emitted at 1. cbn [visit].
  unfold visit_Call, docs_append, indent. cbn [docs indent_level].
  rewrite !visit_each_docs, !visit_each_level, visit_docs, visit_appends.
  cbn [docs indent_level app]. now rewrite <- !app_assoc.
Qed.

(** X1 — the visitor only ever appends: whatever the list holds when a
    visit starts is still its beginning when the visit ends, and a visit of
    a module on a used visitor yields the old lines followed by the lines a
    visitor with an empty list at the same level would produce. *)
Theorem earlier_lines_kept (self : CodeDocGenerator) :
  (forall n, firstn (length (docs self)) (docs (visit n self)) = docs self)
  /\ (forall tree,
        docs (visit_Module tree self)
        = docs self
            ++ docs (visit_Module tree {| docs := []; indent_level := indent_level self |})).
Proof.
  split.
  - intros n. rewrite visit_docs, firstn_app, Nat.sub_diag, firstn_all.
    cbn [firstn]. apply app_nil_r.
  - intros tree. rewrite !visit_Module_docs. reflexivity.
Qed.

Lemma emitted_each_indent_more (l : list node) :
  Forall (fun n => forall d, (0 <= d)%Z ->
            emitted (d + 1) n = map indent_more (emitted d n)) l ->
  forall d, (0 <= d)%Z ->
    emitted_each (d + 1) l = map indent_more (emitted_each d l).
Proof.
  induction 1 as [|n l Hn _ IH]; intros d Hd; [reflexivity|].
  cbn [emitted_each flat_map]. rewrite map_app, Hn by assumption.
  f_equal. now apply IH.
Qed.

(** X2 — nesting changes nothing but the indentation: at a level [d >= 0],
    the lines a node writes one level deeper are its lines at level [d],
    in the same order, each with two more spaces in front, import lines
    excepted (they are written unindented at every level). *)
Theorem nesting_only_indents (n : node) :
  forall d, (0 <= d)%Z -> emitted (d + 1) n = map indent_more (emitted d n).
Proof.
  assert (line : forall d text,
            (0 <= d)%Z -> startswith text "- 📦" = false ->
            (str_mul "  " (d + 1) ++ text)%string
            = indent_more (str_mul "  " d ++ text)).
  { intros. symmetry. now apply indent_more_prefixed. }
  induction n using node_nested_ind; intros d Hd.
  - reflexivity.
  - reflexivity.
  - rewrite !emitted_ClassDef. cbn [map].
    rewrite (emitted_each_indent_more body0) by (assumption || lia).
    unfold class_line, docstring_line.
    now rewrite !(line d) by (assumption || reflexivity).
  - rewrite !emitted_FunctionDef. cbn [map].
    rewrite (emitted_each_indent_more body0) by (assumption || lia).
    unfold function_line, arguments_line, docstring_line.
    now rewrite !(line d) by (assumption || reflexivity).
  - unfold emitted. cbn [visit].
    unfold visit_Assign, docs_append, indent, assignment_line.
    cbn [docs indent_level app map].
    now rewrite (line d) by (assumption || reflexivity).
  - rewrite !emitted_For. cbn [map].
    rewrite (emitted_each_indent_more body0) by (assumption || lia).
    unfold for_line. now rewrite (line d) by (assumption || reflexivity).
  - rewrite !emitted_While, !map_app, IHn by assumption.
    now rewrite !emitted_each_indent_more by assumption.
  - rewrite !emitted_Call_named. cbn [map]. rewrite !map_app, IHn by assumption.
    rewrite !emitted_each_indent_more by assumption.
    unfold call_line. now rewrite (line d) by (assumption || reflexivity).
  - unfold emitted. cbn [visit].
    unfold visit_Return, docs_append, indent, return_line.
    cbn [docs indent_level app map].
    now rewrite (line d) by (assumption || reflexivity).
  - apply IHn, Hd.
  - reflexivity.
  - apply IHn, Hd.
  - reflexivity.
  - rewrite !emitted_Other. now apply emitted_each_indent_more.
Qed.

Lemma length_filter_app {A} (f : A -> bool) (l1 l2 : list A) :
  length (filter f (l1 ++ l2)) = length (filter f l1) + length (filter f l2).
Proof. now rewrite filter_app, length_app. Qed.

Lemma emitted_each_call_lines (l : list node) :
  Forall (fun n => forall d,
            length (filter is_call_line (emitted d n)) = reached_calls n) l ->
  forall d,
    length (filter is_call_line (emitted_each d l)) = list_sum (map reached_calls l).
Proof.
  induction 1 as [|n l Hn _ IH]; intros d; [reflexivity|].
  cbn [emitted_each flat_map map]. change (list_sum (reached_calls n :: map reached_calls l))
    with (reached_calls n + list_sum (map reached_calls l)).
  rewrite length_filter_app, Hn. f_equal. apply IH.
Qed.

(** X3 — the call lines of the output are, in number, the call expressions
    the traversal reaches: one line for every call that stands as a
    statement, in a call's callee, arguments or keywords, in a while loop
    or in any node walked by default, and none for a call inside an
    assignment, a return, a for-loop header or else-clause, or the header
    of a class or function definition (bases, decorators, defaults). *)
Theorem call_lines_count_reached_calls (n : node) :
  forall d, length (filter is_call_line (emitted d n)) = reached_calls n.
Proof.
  assert (other : forall d c rest,
            Ascii.eqb c SP = false ->
            startswith (String c rest) "- 📞 Function call: `" = false ->
            is_call_line (str_mul "  " d ++ String c rest) = false).
  { intros d c rest Hc Hrest. now rewrite is_call_line_prefixed. }
  induction n using node_nested_ind; intros d; cbn [reached_calls].
  - reflexivity.
  - reflexivity.
  - rewrite emitted_ClassDef. unfold class_line, docstring_line.
    cbn [String.append filter]. rewrite !other by reflexivity.
    now apply emitted_each_call_lines.
  - rewrite emitted_FunctionDef. unfold function_line, arguments_line, docstring_line.
    cbn [String.append filter]. rewrite !other by reflexivity.
    now apply emitted_each_call_lines.
  - unfold emitted. cbn [visit].
    unfold visit_Assign, docs_append, indent, assignment_line.
    cbn [docs indent_level app String.append filter].
    now rewrite other by reflexivity.
  - rewrite emitted_For. unfold for_line.
    cbn [String.append filter]. rewrite other by reflexivity.
    now apply emitted_each_call_lines.
  - rewrite emitted_While, !length_filter_app, IHn.
    rewrite !emitted_each_call_lines by assumption. lia.
  - rewrite emitted_Call_named. cbn [filter].
    rewrite call_line_is_call_line. cbn [length].
    rewrite !length_filter_app, IHn.
    rewrite !emitted_each_call_lines by assumption. lia.
  - unfold emitted. cbn [visit].
    unfold visit_Return, docs_append, indent, return_line.
    cbn [docs indent_level app String.append filter].
    now rewrite other by reflexivity.
  - apply IHn.
  - reflexivity.
  - apply IHn.
  - reflexivity.
  - rewrite emitted_Other. now apply emitted_each_call_lines.
Qed.

Lemma emitted_markdown (n : node) :
  forall d, Forall (fun line => is_markdown_block line = true) (emitted d n).
Proof.
  assert (each : forall l, Forall (fun n => forall d,
            Forall (fun line => is_markdown_block line = true) (emitted d n)) l ->
          forall d, Forall (fun line => is_markdown_block line = true) (emitted_each d l)).
  { intros l Hl d. apply Forall_flat_map.
    eapply Forall_impl; [|exact Hl]. intros a Ha. apply Ha. }
  assert (pre : forall d c rest,
            Ascii.eqb c SP = false -> is_markdown_block (String c rest) = true ->
            is_markdown_block (str_mul "  " d ++ String c rest) = true).
  { intros d c rest Hc Hrest. now rewrite is_markdown_block_prefixed. }
  induction n using node_nested_ind; intros d.
  - repeat constructor.
  - repeat constructor.
  - rewrite emitted_ClassDef. unfold class_line, docstring_line. cbn [String.append].
    repeat apply Forall_cons; [| |now apply each]; now apply pre.
  - rewrite emitted_FunctionDef. unfold function_line, arguments_line, docstring_line.
    cbn [String.append].
    repeat apply Forall_cons; [| | |now apply each]; now apply pre.
  - unfold emitted. cbn [visit].
    unfold visit_Assign, docs_append, indent, assignment_line.
    cbn [docs indent_level app String.append]. repeat constructor. now apply pre.
  - rewrite emitted_For. unfold for_line. cbn [String.append].
    apply Forall_cons; [now apply pre | now apply each].
  - rewrite emitted_While. rewrite !Forall_app. repeat split; auto.
  - rewrite emitted_Call_named. unfold call_line. cbn [String.append].
    apply Forall_cons; [now apply pre|].
    rewrite !Forall_app. repeat split; auto.
  - unfold emitted. cbn [visit].
    unfold visit_Return, docs_append, indent, return_line.
    cbn [docs indent_level app String.append]. repeat constructor. now apply pre.
  - apply IHn.
  - constructor.
  - apply IHn.
  - constructor.
  - rewrite emitted_Other. now apply each.
Qed.

(** X4 — every line of the documentation of a module is a Markdown block
    of its own: after its indentation it starts with a heading marker
    ([# ], [## ], [### ]) or with the list marker [- ]. *)
Theorem every_line_is_markdown_block (tree : module_node) :
  forallb is_markdown_block (docs (visit_Module tree CodeDocGenerator_init)) = true.
Proof.
  apply forallb_forall. apply Forall_forall.
  rewrite visit_Module_docs. cbn [docs CodeDocGenerator_init indent_level app].
  apply Forall_cons; [reflexivity|].
  apply Forall_app. split; apply Forall_flat_map, Forall_forall;
    intros n _; apply emitted_markdown.
Qed.

End further_visitor_properties.

(** X2 at the class [C] documented [doc], from level 0 to level 1. *)
Lemma nested_class_lines_shifted :
  (0 <= 0)%Z
  /\ emitted (0 + 1)
       (ClassDef "C" 1 [] []
          [Expr (Constant (CStr "doc")); Assign [Name "x"] (Constant (CInt 1))] [])
     = map indent_more
         [class_line "" "C" 1; docstring_line "" "doc"; assignment_line "  " "x" "1"].
Proof.
  split; [lia|].
  exact (nesting_only_indents
           (ClassDef "C" 1 [] []
              [Expr (Constant (CStr "doc")); Assign [Name "x"] (Constant (CInt 1))] [])
           0%Z (Z.le_refl 0)).
Defined.

(* ===================================================================== *)
(** ** Further properties of analyze_code *)
(* ===================================================================== *)

Lemma no_CR_universal_newlines (s : string) :
  no_CR (universal_newlines s) = true.
Proof.
  enough (both : no_CR (universal_newlines s) = true
                 /\ forall c, no_CR (universal_newlines (String c s)) = true)
    by apply both.
  induction s as [|a s [IHs IHcs]].
  - split; [reflexivity|]. intros c. cbn [universal_newlines].
    destruct (Ascii.eqb c CR) eqn:Hc; [reflexivity|].
    cbn [no_CR]. now rewrite Hc.
  - split; [apply IHcs|]. intros c.
    change (universal_newlines (String c (String a s)))
      with (if Ascii.eqb c CR
            then String LF (if Ascii.eqb a LF then universal_newlines s
                            else universal_newlines (String a s))
            else String c (universal_newlines (String a s))).
    destruct (Ascii.eqb c CR) eqn:Hc.
    + cbn [no_CR]. change (Ascii.eqb LF CR) with false. cbn [negb andb].
      destruct (Ascii.eqb a LF); [exact IHs | apply IHcs].
    + cbn [no_CR]. rewrite Hc. cbn [negb andb]. apply IHcs.
Qed.

Lemma startswith_append_false (t tail : string) :
  forall p,
    startswith t p = false -> String.length p <= String.length t ->
    startswith (t ++ tail) p = false.
Proof.
  induction t as [|c t IH]; intros p Hp Hlen.
  - destruct p; [discriminate Hp | cbn in Hlen; lia].
  - destruct p as [|a p]; [discriminate Hp|].
    cbn [String.append startswith] in *.
    destruct (Ascii.eqb a c); [|reflexivity]. cbn [andb] in *.
    apply IH; [exact Hp | cbn in Hlen; lia].
Qed.

Lemma startswith_title_join (rest : list string) (p : string) :
  startswith title_line p = false ->
  String.length p <= String.length title_line ->
  startswith (str_join nl (title_line :: rest)) p = false.
Proof.
  intros Hp Hlen. unfold str_join.
  destruct rest as [|second rest]; cbn [String.concat].
  - exact Hp.
  - now apply startswith_append_false.
Qed.

Section further_analysis_properties.

Context `{Python}.

Lemma failure_shown (file : file_arg) (e : Exception) :
  fails file e -> analyze_code file = ("❌ Error: " ++ exc_str e, "")%string.
Proof.
  intros Hfail. unfold analyze_code, read_source, bind, ret.
  destruct Hfail as [e | path e | data e Hd | path data e Hd
                    | data text e Hd Hp | path data text e Hd Hp];
    try rewrite Hd; try rewrite Hp; reflexivity.
Qed.

Lemma loads_excludes_fails (file : file_arg) text tree e :
  loads file text tree -> fails file e -> False.
Proof.
  intros [data decoded parsed Hd Hp | path data decoded parsed Hd Hp] Hfail;
    inversion Hfail; subst; congruence.
Qed.

(** X5 — the first element of the result tells which way the call went:
    it starts with the title line exactly when the input was read, decoded
    and parsed and the visit reached its end; it starts with ["❌ Error: "]
    exactly when reading, decoding or parsing raised or the visit was cut
    short; and it is the no-file warning exactly when the argument is
    [None]. In particular it is never empty, and no report of a visited
    file can be taken for an error message. *)
Theorem report_shows_outcome (file : file_arg) :
  let shown := fst (analyze_code file) in
  (startswith shown title_line = true
   <-> exists text tree, loads file text tree /\ visit_raises tree = None)
  /\ (startswith shown "❌ Error: " = true
      <-> exists e, fails file e \/ interrupted file e)
  /\ (shown = fst (analyze_code PyNone) <-> file = PyNone).
Proof.
  intros shown. subst shown.
  destruct (loads_or_fails file) as [-> | [(text & tree & Hload) | (e & Hfail)]].
  - repeat split; try reflexivity; try discriminate.
    + intros (text & tree & Hload & _). inversion Hload.
    + intros (e & [Hfail | Hcut]); [inversion Hfail|].
      inversion Hcut as [f text tree e' Hload Hraise]; subst. inversion Hload.
  - assert (Hnone : file <> PyNone) by (intros ->; inversion Hload).
    destruct (visit_raises tree) as [e|] eqn:Hcut.
    + assert (Hint : interrupted file e) by (econstructor; eassumption).
      rewrite (analyze_code_interrupted _ _ Hint). cbn [fst].
      repeat split.
      * discriminate.
      * intros (text' & tree' & Hload' & Hend).
        destruct (loads_unique _ _ _ _ _ Hload Hload') as [_ <-]. congruence.
      * intros _. exists e. now right.
      * discriminate.
      * intros ->. now elim Hnone.
    + rewrite (analyze_code_completes _ _ _ Hload Hcut). cbn [fst]. unfold report.
      rewrite visit_Module_docs. cbn [docs CodeDocGenerator_init indent_level app].
      repeat split.
      * intros _. now exists text, tree.
      * intros _. apply startswith_join.
      * rewrite startswith_title_join; [discriminate | reflexivity | cbn; lia].
      * intros (e & [Hfail | Hint]).
        -- now destruct (loads_excludes_fails _ _ _ _ Hload Hfail).
        -- inversion Hint as [f text' tree' e' Hload' Hcut']; subst.
           destruct (loads_unique _ _ _ _ _ Hload Hload') as [_ <-]. congruence.
      * intros Heq. exfalso.
        assert (Hstart : startswith (fst (analyze_code PyNone)) title_line = true)
          by (rewrite <- Heq; apply startswith_join).
        discriminate Hstart.
      * intros ->. now elim Hnone.
  - assert (Hnone : file <> PyNone) by (intros ->; inversion Hfail).
    rewrite (failure_shown _ _ Hfail). cbn [fst].
    repeat split.
    + discriminate.
    + intros (text & tree & Hload & _).
      now destruct (loads_excludes_fails _ _ _ _ Hload Hfail).
    + intros _. exists e. now left.
    + discriminate.
    + intros ->. now elim Hnone.
Qed.

(** X6 — the source a call on a path returns never holds a carriage
    return, whatever the file holds and whether or not the call succeeds:
    reading in text mode turns every line ending into a line feed, and a
    failing call returns the empty string. *)
Theorem path_source_has_no_carriage_return (path : string) (contents : result (list byte)) :
  no_CR (snd (analyze_code (FilePath path contents))) = true.
Proof.
  destruct (loads_or_fails (FilePath path contents))
    as [Hnone | [(text & tree & Hload) | (e & Hfail)]].
  - discriminate Hnone.
  - rewrite (analyze_code_loads _ _ _ Hload).
    destruct (visit_raises tree); [reflexivity|]. cbn [snd].
    inversion Hload; subst. apply no_CR_universal_newlines.
  - now rewrite (echo_empty_on_failure _ _ Hfail).
Qed.

End further_analysis_properties.
